(** * The [either] package: the [Either] result type and its two adapters

    A shallow embedding of [either/either.py].  Python values are an
    inductive type with [VNone] for [None]; a call that may raise returns an
    [outcome]; a callable is a function from its arguments to an outcome; a
    suspendable operation is a finite tree of suspension points.  Where a
    property depends on what the callables do to the program state, they are
    state transformers and the instance is part of the state. *)

From Stdlib Require Import ZArith String List Bool Arith Lia SpecFloat.
Import ListNotations.
Local Open Scope string_scope.

Set Implicit Arguments.

(** ** Exception classes and exception objects *)

(** The part of the host's class hierarchy the package touches, the three
    classes [either.py] declares, and classes declared by callers. *)
Inductive pyclass : Type :=
| BaseException
| SystemExit
| KeyboardInterrupt
| GeneratorExit
| CancelledError
| Exception
| ArithmeticError
| ZeroDivisionError
| TypeError
| ValueError
| EitherError
| PrivateConstructorError
| UnreachableError
| UserClass (name : string) (base : pyclass).

Definition pyclass_eq_dec (c d : pyclass) : {c = d} + {c <> d}.
Proof. decide equality. apply string_dec. Defined.

Definition pyclass_eqb (c d : pyclass) : bool :=
  if pyclass_eq_dec c d then true else false.

(** Method resolution order: the class followed by its ancestors.
    [class EitherError(Exception)], [class PrivateConstructorError(EitherError)],
    [class UnreachableError(EitherError)]. *)
Fixpoint mro (c : pyclass) : list pyclass :=
  match c with
  | BaseException => [BaseException]
  | SystemExit => [SystemExit; BaseException]
  | KeyboardInterrupt => [KeyboardInterrupt; BaseException]
  | GeneratorExit => [GeneratorExit; BaseException]
  | CancelledError => [CancelledError; BaseException]
  | Exception => [Exception; BaseException]
  | ArithmeticError => [ArithmeticError; Exception; BaseException]
  | ZeroDivisionError =>
      [ZeroDivisionError; ArithmeticError; Exception; BaseException]
  | TypeError => [TypeError; Exception; BaseException]
  | ValueError => [ValueError; Exception; BaseException]
  | EitherError => [EitherError; Exception; BaseException]
  | PrivateConstructorError =>
      [PrivateConstructorError; EitherError; Exception; BaseException]
  | UnreachableError =>
      [UnreachableError; EitherError; Exception; BaseException]
  | UserClass _ base => c :: mro base
  end.

Definition issubclass (c d : pyclass) : bool := existsb (pyclass_eqb d) (mro c).

(** An exception object: its type, its message and its cause chain. *)
#[warnings="-register-all"]
Inductive exn : Type :=
  mkExn { exc_class : pyclass; exc_args : string; exc_cause : option exn }.

(** [Cls(msg)] *)
Definition new_exn (cls : pyclass) (msg : string) : exn := mkExn cls msg None.

Definition isinstance (e : exn) (cls : pyclass) : bool :=
  issubclass (exc_class e) cls.

Fixpoint exn_eqb (a b : exn) : bool :=
  pyclass_eqb (exc_class a) (exc_class b)
  && String.eqb (exc_args a) (exc_args b)
  && match exc_cause a, exc_cause b with
     | None, None => true
     | Some a', Some b' => exn_eqb a' b'
     | _, _ => false
     end.

(** ** Values *)

(** The payload kinds: [None], [bool], [int], [float] (the IEEE values,
    with NaN and the signed zeros and infinities), [str], exception objects,
    and instances of classes the caller declares, known by their
    identity. *)
Inductive pyval : Type :=
| VNone
| VBool (b : bool)
| VInt (z : Z)
| VFloat (f : spec_float)
| VStr (s : string)
| VExc (e : exn)
| VObj (oid : nat).

(** [v is None] *)
Definition is_None (v : pyval) : bool :=
  match v with VNone => true | _ => false end.

(** ** Calls that may raise *)

Inductive outcome (A : Type) : Type :=
| Return (a : A)
| Raise (e : exn).

Arguments Return {A} a.
Arguments Raise {A} e.

Definition bind {A B : Type} (m : outcome A) (k : A -> outcome B) : outcome B :=
  match m with
  | Return a => k a
  | Raise e => Raise e
  end.

(** [try: body  except cls as exc: handler] *)
Definition try_except {A : Type}
  (body : outcome A) (cls : pyclass) (handler : exn -> outcome A) : outcome A :=
  match body with
  | Return a => Return a
  | Raise exc => if isinstance exc cls then handler exc else Raise exc
  end.

Declare Scope py_scope.
Delimit Scope py_scope with py.
Notation "x <- m ;; k" := (bind m (fun x => k))
  (at level 61, m at next level, right associativity) : py_scope.
Local Open Scope py_scope.

(** Positional and keyword arguments of a call. *)
Definition pyargs : Type := list pyval.
Definition pykwargs : Type := list (string * pyval).

(** ** [class Either] *)

Record Either : Type := mkEither { ok : pyval; err : pyval; is_ok : bool }.

(** [Either.__new__]: every direct instantiation raises. *)
Definition __new__ (args : pyargs) (kwargs : pykwargs) : outcome Either :=
  let err := "Use Either.Ok or Either.Err to create an instance." in
  Raise (new_exn PrivateConstructorError err).

(** [Either(...)], the class called as a constructor: the host
    runs [__new__] and, with the instance it returns, the initialiser the
    dataclass decorator generated. *)
Definition Either_call
  (__init__ : Either -> pyargs -> pykwargs -> outcome Either)
  (args : pyargs) (kwargs : pykwargs) : outcome Either :=
  instance <- __new__ args kwargs ;;
  __init__ instance args kwargs.

(** [Either.Ok(ok)] *)
Definition Ok (ok : pyval) : Either :=
  {| err := VNone; ok := ok; is_ok := true |}.

(** [Either.Err(err)] *)
Definition Err (err : pyval) : Either :=
  {| err := err; ok := VNone; is_ok := false |}.

(** The two patterns of [Either.match] with their guards: each yields the
    captured payload when the subject [(self.is_ok, self.ok, self.err)]
    matches and the guard holds.  The literal patterns [True], [False] and
    [None] match by identity. *)
Definition case_ok (self : Either) : option pyval :=
  match is_ok self, ok self, err self with
  | true, _ok, VNone => if negb (is_None _ok) then Some _ok else None
  | _, _, _ => None
  end.

Definition case_err (self : Either) : option pyval :=
  match is_ok self, ok self, err self with
  | false, VNone, _err => if negb (is_None _err) then Some _err else None
  | _, _, _ => None
  end.

(** [Either.match]: the cases are tried in order; a case whose pattern or
    guard fails falls through to the next, the wildcard raises. *)
Definition match_ {T : Type}
  (self : Either) (ok_fn err_fn : pyval -> outcome T) : outcome T :=
  match case_ok self with
  | Some _ok => ok_fn _ok
  | None =>
      match case_err self with
      | Some _err => err_fn _err
      | None =>
          let err := "Either is in an invalid state." in
          Raise (new_exn UnreachableError err)
      end
  end.

(** ** [Either.match] with branch functions that act on the program state

    A branch function is any callable of the caller: it may read and change
    what the program holds, the matched instance included (assignment
    through [object.__setattr__] goes past the frozen dataclass, as the
    factories show).  The state is the receiver of [match] and the rest of
    the caller's world. *)

Section Stateful.

Variable W : Type.

Record state : Type := mkState { receiver : Either; world : W }.

Definition stateful (A : Type) : Type := state -> outcome A * state.

(** [self.match(ok_fn, err_fn)]: the three fields are read from the
    receiver, the cases are tried in order, and the branch function of the
    case that applies is called in the current state. *)
Definition match_in {T : Type} (ok_fn err_fn : pyval -> stateful T)
  : stateful T :=
  fun s =>
    match case_ok (receiver s) with
    | Some _ok => ok_fn _ok s
    | None =>
        match case_err (receiver s) with
        | Some _err => err_fn _err s
        | None =>
            let err := "Either is in an invalid state." in
            (Raise (new_exn UnreachableError err), s)
        end
    end.

(** [n] successive calls of [match] on the receiver, each in the state the
    previous call left; the results in order, and the final state. *)
Fixpoint match_in_times {T : Type} (n : nat)
  (ok_fn err_fn : pyval -> stateful T) (s : state)
  : list (outcome T) * state :=
  match n with
  | O => ([], s)
  | S n' =>
      let (r, s') := match_in ok_fn err_fn s in
      let (rs, s'') := match_in_times n' ok_fn err_fn s' in
      (r :: rs, s'')
  end.

(** A branch function without effect on the state: it may read it. *)
Definition read_only {T : Type} (fn : pyval -> stateful T) : Prop :=
  forall (v : pyval) (s : state), snd (fn v s) = s.

End Stateful.

Arguments mkState {W} receiver world.
Arguments receiver {W} s.
Arguments world {W} s.

(** [lambda _: next(counter)] for a counter the caller keeps: returns the
    count and increments it. *)
Definition counting : pyval -> stateful nat pyval :=
  fun _ s =>
    (Return (VInt (Z.of_nat (world s))), mkState (receiver s) (S (world s))).

(** [lambda x: x] as a state transformer. *)
Definition identity_in {W : Type} : pyval -> stateful W pyval :=
  fun x s => (Return x, s).

(** The data-model invariant, with "absent" encoded as [None] as the fields'
    [Optional] types do: exactly one payload is present and the flag tells
    which. *)
Definition present (v : pyval) : bool := negb (is_None v).

Definition invariant (e : Either) : bool :=
  xorb (present (ok e)) (present (err e)) && Bool.eqb (is_ok e) (present (ok e)).

(** Instances the two public factories produce. *)
Inductive from_factory : Either -> Prop :=
| from_Ok (v : pyval) : from_factory (Ok v)
| from_Err (v : pyval) : from_factory (Err v).

(** ** Equality of values and of instances *)

Section Equality.

(** Whether two [int], [float], [str] or exception values are one object.
    The host decides it (small integers and strings may be shared or not,
    two exceptions raised apart are two objects whatever they hold), so it is
    a parameter. *)
Variable same_object : pyval -> pyval -> bool.

(** [a == b] when [a] or [b] is an instance of a class the caller declares:
    whatever that class' [__eq__] answers, or raises. *)
Variable user_eq : pyval -> pyval -> outcome bool.

(** [a is b]: [None], [True] and [False] are singletons, an instance of a
    caller's class is known by its identity. *)
Definition py_is (a b : pyval) : bool :=
  match a, b with
  | VNone, VNone => true
  | VBool x, VBool y => Bool.eqb x y
  | VObj i, VObj j => Nat.eqb i j
  | VInt _, VInt _ | VFloat _, VFloat _ | VStr _, VStr _ | VExc _, VExc _ =>
      same_object a b
  | _, _ => false
  end.

Definition int_like (v : pyval) : option Z :=
  match v with
  | VBool b => Some (Z.b2z b)
  | VInt z => Some z
  | _ => None
  end.

(** A [float] against an [int]: exact, no rounding of the integer. *)
Definition float_eq_int (f : spec_float) (z : Z) : bool :=
  match f with
  | S754_zero _ => Z.eqb z 0
  | S754_finite sign m e =>
      let v := if sign then Z.neg m else Z.pos m in
      Z.eqb (v * 2 ^ Z.max 0 e) (z * 2 ^ Z.max 0 (- e))
  | _ => false
  end.

(** [==] between values of the host's own types: numbers by value ([bool]
    is an [int]; NaN equals nothing, itself included), strings by content,
    [None] and exceptions by identity. *)
Definition builtin_eq (a b : pyval) : bool :=
  match int_like a, int_like b with
  | Some x, Some y => Z.eqb x y
  | Some x, None => match b with VFloat g => float_eq_int g x | _ => false end
  | None, Some y => match a with VFloat f => float_eq_int f y | _ => false end
  | None, None =>
      match a, b with
      | VFloat f, VFloat g => SFeqb f g
      | VStr s, VStr t => String.eqb s t
      | _, _ => py_is a b
      end
  end.

Definition user_defined (v : pyval) : bool :=
  match v with
  | VObj _ => true
  | VExc e => match exc_class e with UserClass _ _ => true | _ => false end
  | _ => false
  end.

(** [a == b] *)
Definition py_eq (a b : pyval) : outcome bool :=
  if user_defined a || user_defined b then user_eq a b
  else Return (builtin_eq a b).

(** The [__eq__] the dataclass decorator generates (line 25, [eq] left at
    its default) compares the instances' field tuples.  Tuples are compared
    item by item up to the first pair that differs; a pair is equal when
    its items are one object, and else when they are [==]. *)
Definition item_eq (a b : pyval) : outcome bool :=
  if py_is a b then Return true else py_eq a b.

Fixpoint tuple_eq (xs ys : list pyval) : outcome bool :=
  match xs, ys with
  | [], [] => Return true
  | x :: xs', y :: ys' =>
      same <- item_eq x y ;;
      if same then tuple_eq xs' ys' else Return false
  | _, _ => Return false
  end.

Definition astuple (e : Either) : list pyval :=
  [ok e; err e; VBool (is_ok e)].

Definition Either_eq (self other : Either) : outcome bool :=
  tuple_eq (astuple self) (astuple other).

End Equality.

(** A program in which no two distinct objects hold the same content:
    values are one object exactly when their contents are the same. *)
Definition sf_same (f g : spec_float) : bool :=
  match f, g with
  | S754_zero s, S754_zero t => Bool.eqb s t
  | S754_infinity s, S754_infinity t => Bool.eqb s t
  | S754_nan, S754_nan => true
  | S754_finite s m e, S754_finite t n d =>
      Bool.eqb s t && Pos.eqb m n && Z.eqb e d
  | _, _ => false
  end.

Definition one_object_per_value (a b : pyval) : bool :=
  match a, b with
  | VInt x, VInt y => Z.eqb x y
  | VFloat f, VFloat g => sf_same f g
  | VStr s, VStr t => String.eqb s t
  | VExc e, VExc f => exn_eqb e f
  | _, _ => false
  end.

(** Callers' classes that keep [object.__eq__]: equal when one object. *)
Definition object_eq (a b : pyval) : outcome bool :=
  Return (py_is one_object_per_value a b).


(** ** The adapters *)

(** A callable: positional and keyword arguments in, a value or a raised
    exception out. *)
Definition callable : Type := pyargs -> pykwargs -> outcome pyval.

(** [as_either(fn)]: the call of [fn] and the construction of the [Ok]
    instance are both inside the [try]; the handler is
    [except Exception as exc]. *)
Definition as_either (fn : callable) : pyargs -> pykwargs -> outcome Either :=
  fun args kwargs =>
    try_except
      (v <- fn args kwargs ;; Return (Ok v))
      Exception
      (fun exc => Return (Err (VExc exc))).

(** What the event loop does at a suspension point: resume the operation
    with a value, or throw an exception into it (cancellation throws
    [CancelledError]). *)
Inductive resume : Type :=
| Send (v : pyval)
| Throw (e : exn).

(** A suspendable operation that settles: it is done, with a value or a
    raised exception, or it is suspended on a yielded value and continues
    when resumed. *)
Inductive coro (A : Type) : Type :=
| Done (o : outcome A)
| Suspend (y : pyval) (k : resume -> coro A).

Arguments Done {A} o.
Arguments Suspend {A} y k.

Definition async_callable : Type := pyargs -> pykwargs -> coro pyval.

(** The body of [as_async_either.inner] around [await fn(...)]: the
    suspensions of the awaited operation are those of [inner]; once it
    settles, the value is wrapped by [Either.Ok] and an exception meets
    [except Exception as exc]. *)
Fixpoint await_in_try (c : coro pyval) : coro Either :=
  match c with
  | Done o =>
      Done (try_except
              (v <- o ;; Return (Ok v))
              Exception
              (fun exc => Return (Err (VExc exc))))
  | Suspend y k => Suspend y (fun r => await_in_try (k r))
  end.

Definition as_async_either (fn : async_callable)
  : pyargs -> pykwargs -> coro Either :=
  fun args kwargs => await_in_try (fn args kwargs).

(** An event loop driving an operation to completion: at each suspension it
    picks the resumption from the values yielded so far. *)
Definition event_loop : Type := list pyval -> resume.

Fixpoint run {A : Type} (loop : event_loop) (seen : list pyval) (c : coro A)
  : outcome A :=
  match c with
  | Done o => o
  | Suspend y k => run loop (y :: seen) (k (loop (y :: seen)))
  end.




(** ** Sample callers *)

(** [tests/test_either.py]: [fail] calls [pytest.fail(ERR)], which raises
    pytest's [Failed], a [BaseException]. *)
Definition ERR : string := "Should not have been called.".

Definition fail {T : Type} (_failure : pyval) : outcome T :=
  Raise (new_exn (UserClass "Failed" BaseException) ERR).

(** [lambda x: x] *)
Definition identity (x : pyval) : outcome pyval := Return x.

(** A caller's function that takes any arguments, returns the first
    positional one and raises [ValueError("no argument")] without one. *)
Definition first_positional : callable :=
  fun args kwargs =>
    match args with
    | [] => Raise (new_exn ValueError "no argument")
    | v :: _ => Return v
    end.

(** A callable interrupted from the keyboard. *)
Definition interrupted : callable :=
  fun _ _ => Raise (new_exn KeyboardInterrupt "").

(** The same function as a suspendable operation that first yields once to
    the event loop (a [sleep(0)]-like checkpoint); an exception thrown in at
    the checkpoint propagates. *)
Definition first_positional_later : async_callable :=
  fun args kwargs =>
    Suspend VNone (fun r =>
      match r with
      | Send _ => Done (first_positional args kwargs)
      | Throw e => Done (Raise e)
      end).

(** * Properties *)

(** The exception the wildcard case of [Either.match] raises. *)
Definition unreachable : exn :=
  new_exn UnreachableError "Either is in an invalid state.".

(** The exception [Either.__new__] raises. *)
Definition private_constructor : exn :=
  new_exn PrivateConstructorError
          "Use Either.Ok or Either.Err to create an instance.".

(** ** Equality of classes, exceptions and values *)

Lemma pyclass_eqb_refl (c : pyclass) : pyclass_eqb c c = true.
Proof. unfold pyclass_eqb. destruct (pyclass_eq_dec c c); congruence. Qed.

Lemma pyclass_eqb_eq (c d : pyclass) : pyclass_eqb c d = true <-> c = d.
Proof.
  unfold pyclass_eqb. destruct (pyclass_eq_dec c d); split; congruence.
Qed.

Lemma is_None_true (v : pyval) : is_None v = true <-> v = VNone.
Proof. destruct v; simpl; split; congruence. Qed.

Lemma is_None_false (v : pyval) : is_None v = false <-> v <> VNone.
Proof. destruct v; simpl; split; congruence. Qed.

(** ** Dispatch of [match] *)

Lemma case_ok_Ok (v : pyval) :
  case_ok (Ok v) = if is_None v then None else Some v.
Proof. unfold case_ok; simpl. destruct (is_None v); reflexivity. Qed.

Lemma case_err_Ok (v : pyval) : case_err (Ok v) = None.
Proof. reflexivity. Qed.

Lemma case_ok_Err (v : pyval) : case_ok (Err v) = None.
Proof. reflexivity. Qed.

Lemma case_err_Err (v : pyval) :
  case_err (Err v) = if is_None v then None else Some v.
Proof. unfold case_err; simpl. destruct (is_None v); reflexivity. Qed.

Lemma match_Ok {T : Type} (v : pyval) (ok_fn err_fn : pyval -> outcome T) :
  match_ (Ok v) ok_fn err_fn = if is_None v then Raise unreachable else ok_fn v.
Proof.
  unfold match_. rewrite case_ok_Ok, case_err_Ok.
  destruct (is_None v); reflexivity.
Qed.

Lemma match_Err {T : Type} (v : pyval) (ok_fn err_fn : pyval -> outcome T) :
  match_ (Err v) ok_fn err_fn = if is_None v then Raise unreachable else err_fn v.
Proof.
  unfold match_. rewrite case_ok_Err, case_err_Err.
  destruct (is_None v); reflexivity.
Qed.

(** On any instance, [match] raises from its wildcard exactly when the
    invariant fails, and otherwise calls the branch the flag names. *)
Lemma match_invariant {T : Type} (e : Either) (ok_fn err_fn : pyval -> outcome T) :
  match_ e ok_fn err_fn =
  if invariant e
  then (if is_ok e then ok_fn (ok e) else err_fn (err e))
  else Raise unreachable.
Proof.
  destruct e as [o r b].
  destruct b, o, r; reflexivity.
Qed.

(** Away from [None] the factories do establish the invariant and the round
    trip through [match] returns the payload. *)
Lemma invariant_Ok (v : pyval) : v <> VNone -> invariant (Ok v) = true.
Proof. intros Hv. destruct v; try reflexivity. congruence. Qed.

Lemma invariant_Err (v : pyval) : v <> VNone -> invariant (Err v) = true.
Proof. intros Hv. destruct v; try reflexivity. congruence. Qed.

Lemma match_Ok_not_None {T : Type} (v : pyval) (ok_fn err_fn : pyval -> outcome T) :
  v <> VNone -> match_ (Ok v) ok_fn err_fn = ok_fn v.
Proof.
  intros Hv. rewrite match_Ok.
  apply is_None_false in Hv. now rewrite Hv.
Qed.

Lemma match_Err_not_None {T : Type} (v : pyval) (ok_fn err_fn : pyval -> outcome T) :
  v <> VNone -> match_ (Err v) ok_fn err_fn = err_fn v.
Proof.
  intros Hv. rewrite match_Err.
  apply is_None_false in Hv. now rewrite Hv.
Qed.

(** ** Equality of instances *)

Section EqualityFacts.

Variable same_object : pyval -> pyval -> bool.
Variable user_eq : pyval -> pyval -> outcome bool.

Lemma bind_truth (m : outcome bool) :
  (same <- m ;; if same then Return true else Return false) = m.
Proof. destruct m as [[|] | e]; reflexivity. Qed.

(** The flag items: [True] and [False] are singletons, and [True == False]
    is false. *)
Lemma item_eq_flag (x y : bool) :
  item_eq same_object user_eq (VBool x) (VBool y) = Return (Bool.eqb x y).
Proof. destruct x, y; reflexivity. Qed.

Lemma Either_eq_Ok_Ok (v1 v2 : pyval) :
  Either_eq same_object user_eq (Ok v1) (Ok v2)
  = item_eq same_object user_eq v1 v2.
Proof.
  unfold Either_eq, astuple, tuple_eq, Ok; cbn [ok err is_ok].
  destruct (item_eq same_object user_eq v1 v2) as [[|] | e]; reflexivity.
Qed.

Lemma Either_eq_Err_Err (e1 e2 : pyval) :
  Either_eq same_object user_eq (Err e1) (Err e2)
  = item_eq same_object user_eq e1 e2.
Proof.
  unfold Either_eq, astuple, tuple_eq, Err; cbn [ok err is_ok].
  change (item_eq same_object user_eq VNone VNone) with (Return true).
  cbn [bind].
  destruct (item_eq same_object user_eq e1 e2) as [[|] | e]; reflexivity.
Qed.

Lemma item_eq_true (a b : pyval) :
  item_eq same_object user_eq a b = Return true <->
  py_is same_object a b = true \/ py_eq same_object user_eq a b = Return true.
Proof.
  unfold item_eq. destruct (py_is same_object a b); split; intros H.
  - now left.
  - reflexivity.
  - now right.
  - destruct H as [H | H]; [discriminate H | exact H].
Qed.

(** Instances that compare equal carry the same flag. *)
Lemma Either_eq_flag (a b : Either) :
  Either_eq same_object user_eq a b = Return true -> is_ok a = is_ok b.
Proof.
  unfold Either_eq, astuple, tuple_eq.
  destruct (item_eq same_object user_eq (ok a) (ok b)) as [[|] | e];
    cbn [bind]; try discriminate.
  destruct (item_eq same_object user_eq (err a) (err b)) as [[|] | e];
    cbn [bind]; try discriminate.
  rewrite item_eq_flag; cbn [bind].
  destruct (Bool.eqb (is_ok a) (is_ok b)) eqn:Hflag; [| discriminate].
  intros _. now apply eqb_prop.
Qed.

End EqualityFacts.

(** ** [match] with branch functions that act on the state *)

(** [match] assigns nothing: the state after a call is the state the branch
    function it called left, and the state before the call when it raises
    from the wildcard. *)
Lemma match_in_state {W T : Type} (ok_fn err_fn : pyval -> stateful W T)
  (s : state W) :
  snd (match_in ok_fn err_fn s) =
  if invariant (receiver s)
  then snd ((if is_ok (receiver s)
             then ok_fn (ok (receiver s))
             else err_fn (err (receiver s))) s)
  else s.
Proof.
  unfold match_in. destruct s as [[o r b] w]; cbn [receiver].
  destruct b, o, r; reflexivity.
Qed.

Lemma match_in_read_only {W T : Type} (ok_fn err_fn : pyval -> stateful W T) :
  read_only ok_fn -> read_only err_fn ->
  forall s : state W, snd (match_in ok_fn err_fn s) = s.
Proof.
  intros Hok Herr s. rewrite match_in_state.
  destruct (invariant (receiver s)); [| reflexivity].
  destruct (is_ok (receiver s)); [apply Hok | apply Herr].
Qed.

(** With branch functions that are functions of the payload alone, the
    stateful [match] is [match_] and leaves the state as it was. *)
Lemma match_in_pure {W T : Type} (ok_fn err_fn : pyval -> outcome T)
  (s : state W) :
  match_in (fun v s' => (ok_fn v, s')) (fun v s' => (err_fn v, s')) s
  = (match_ (receiver s) ok_fn err_fn, s).
Proof.
  unfold match_in, match_.
  destruct (case_ok (receiver s)); [reflexivity |].
  destruct (case_err (receiver s)); reflexivity.
Qed.

(** ** The adapters *)

Lemma as_either_unfold (fn : callable) (args : pyargs) (kwargs : pykwargs) :
  as_either fn args kwargs =
  match fn args kwargs with
  | Return v => Return (Ok v)
  | Raise exc =>
      if isinstance exc Exception then Return (Err (VExc exc)) else Raise exc
  end.
Proof. unfold as_either. destruct (fn args kwargs); reflexivity. Qed.



(** A cancellation thrown in at a suspension point and not handled by the
    operation leaves the adapted operation as the cancellation. *)
Lemma cancel_propagates :
  let cancelled := new_exn CancelledError "" in
  run (fun _ => Throw cancelled) []
      (as_async_either first_positional_later [VInt 4; VInt 2] [])
  = Raise cancelled.
Proof. reflexivity. Qed.

(** ** The claims *)

(** C1 (round trip through the factories).  The claim asks that, for every
    value [v], [Ok(v).match(id, fail)] returns [v], and symmetrically for
    [Err].  At the payload [None] the code does not: the instance falls to
    the wildcard case of [match], which raises [UnreachableError], on both
    sides; the other payload is [None] as claimed. *)
Theorem C1_roundtrip_None_raises :
  match_ (Ok VNone) identity fail = Raise unreachable
  /\ err (Ok VNone) = VNone
  /\ match_ (Err VNone) fail identity = Raise unreachable
  /\ ok (Err VNone) = VNone.
Proof. repeat split. Qed.

(** The round trip on every payload other than [None]. *)
Lemma roundtrip_not_None (v : pyval) :
  v <> VNone ->
  (match_ (Ok v) identity fail = Return v /\ err (Ok v) = VNone)
  /\ (match_ (Err v) fail identity = Return v /\ ok (Err v) = VNone).
Proof.
  intros Hv. repeat split.
  - now rewrite match_Ok_not_None.
  - now rewrite match_Err_not_None.
Qed.

(** C2 ([UnreachableError] cannot be reached through the factories).  The
    claim asks that [match] never raises [UnreachableError] on an instance a
    factory built.  The code does raise it: on [Ok(None)] and on
    [Err(None)], whatever the branch functions are. *)
Theorem C2_unreachable_reached :
  exists e : Either,
    from_factory e
    /\ forall (T : Type) (ok_fn err_fn : pyval -> outcome T),
         match_ e ok_fn err_fn = Raise unreachable.
Proof.
  exists (Ok VNone). split.
  - constructor.
  - intros T ok_fn err_fn. reflexivity.
Qed.

(** On factory-built instances with a payload other than [None], [match]
    returns what the branch named by the factory returns. *)
Lemma match_from_factory_not_None {T : Type} (v : pyval)
  (ok_fn err_fn : pyval -> outcome T) :
  v <> VNone ->
  match_ (Ok v) ok_fn err_fn = ok_fn v /\ match_ (Err v) ok_fn err_fn = err_fn v.
Proof.
  intros Hv. split.
  - now apply match_Ok_not_None.
  - now apply match_Err_not_None.
Qed.

(** C3 (exactly one payload on every factory-built instance).  The claim
    asks that no instance a factory produced holds neither payload.  The
    instances [Ok(None)] and [Err(None)] hold neither: both fields are
    [None], and the invariant fails on them. *)
Theorem C3_factory_instance_without_payload :
  (from_factory (Ok VNone)
   /\ present (ok (Ok VNone)) = false /\ present (err (Ok VNone)) = false
   /\ invariant (Ok VNone) = false)
  /\ (from_factory (Err VNone)
      /\ present (ok (Err VNone)) = false /\ present (err (Err VNone)) = false
      /\ invariant (Err VNone) = false).
Proof. repeat split; constructor. Qed.

(** The invariant on every factory-built instance with a payload other than
    [None]. *)
Lemma invariant_from_factory_not_None (v : pyval) :
  v <> VNone -> invariant (Ok v) = true /\ invariant (Err v) = true.
Proof. intros Hv. split; [now apply invariant_Ok | now apply invariant_Err]. Qed.

(** C4 (direct construction is refused).  Whatever positional and keyword
    arguments the class is called with, and whatever initialiser would have
    run afterwards, [__new__] raises [PrivateConstructorError] with the
    fixed message "Use Either.Ok or Either.Err to create an instance.", so
    the call raises that same exception and yields no instance. *)
Theorem C4_direct_construction_raises :
  forall (__init__ : Either -> pyargs -> pykwargs -> outcome Either)
         (args : pyargs) (kwargs : pykwargs),
    __new__ args kwargs = Raise private_constructor
    /\ Either_call __init__ args kwargs = Raise private_constructor
    /\ exc_class private_constructor = PrivateConstructorError
    /\ exc_args private_constructor
       = "Use Either.Ok or Either.Err to create an instance."
    /\ forall instance : Either,
         Either_call __init__ args kwargs <> Return instance.
Proof.
  intros __init__ args kwargs. repeat split.
  intros instance H. discriminate H.
Qed.

(** C5 ([as_either] turns the outcome of [fn] into an [Either]).  If the
    call of [fn] returns [v], the adapted call returns [Ok(v)]; if it raises
    an exception [e] that is an instance of [Exception], the adapted call
    returns [Err(e)], the payload being that exception with its class,
    message and cause chain, and nothing is raised. *)
Theorem C5_as_either_captures :
  forall (fn : callable) (args : pyargs) (kwargs : pykwargs),
    (forall v : pyval,
        fn args kwargs = Return v ->
        as_either fn args kwargs = Return (Ok v))
    /\ (forall e : exn,
           fn args kwargs = Raise e ->
           isinstance e Exception = true ->
           as_either fn args kwargs = Return (Err (VExc e))
           /\ err (Err (VExc e)) = VExc e
           /\ forall e' : exn, as_either fn args kwargs <> Raise e').
Proof.
  intros fn args kwargs. split.
  - intros v Hfn. rewrite as_either_unfold, Hfn. reflexivity.
  - intros e Hfn He. rewrite as_either_unfold, Hfn, He.
    repeat split. intros e' H. discriminate H.
Qed.

Lemma C5_as_either_captures_witness :
  as_either first_positional [VInt 4; VInt 2] [] = Return (Ok (VInt 4))
  /\ as_either first_positional [] []
     = Return (Err (VExc (new_exn ValueError "no argument"))).
Proof.
  split.
  - apply (proj1 (C5_as_either_captures first_positional [VInt 4; VInt 2] [])).
    reflexivity.
  - apply (proj2 (C5_as_either_captures first_positional [] [])).
    + reflexivity.
    + reflexivity.
Defined.




(** C8 ([as_either] lets non-[Exception] faults through).  If the call of
    [fn] raises an exception that is not an instance of [Exception] (a
    [BaseException] such as [KeyboardInterrupt] or [SystemExit]), the
    adapted call raises that same exception and returns no [Either]. *)
Theorem C8_as_either_propagates :
  forall (fn : callable) (args : pyargs) (kwargs : pykwargs) (e : exn),
    fn args kwargs = Raise e ->
    isinstance e Exception = false ->
    as_either fn args kwargs = Raise e.
Proof.
  intros fn args kwargs e Hfn He.
  rewrite as_either_unfold, Hfn, He. reflexivity.
Qed.

Lemma C8_as_either_propagates_witness :
  as_either interrupted [] [] = Raise (new_exn KeyboardInterrupt "").
Proof.
  apply (C8_as_either_propagates interrupted [] []).
  - reflexivity.
  - reflexivity.
Defined.

(** The claim C9 as stated, the same result at every call for every pair
    of branch functions, fails for a branch function with a state of its
    own: with [ok_fn] a counter, two calls of [match] on [Ok(10)] return 0
    and then 1. *)
Lemma C9_counting_counterexample :
  ~ (forall (W T : Type) (ok_fn err_fn : pyval -> stateful W T)
            (n : nat) (s : state W),
        fst (match_in_times n ok_fn err_fn s)
        = repeat (fst (match_in ok_fn err_fn s)) n
        /\ receiver (snd (match_in_times n ok_fn err_fn s)) = receiver s).
Proof.
  intros H.
  destruct (H nat pyval counting counting 2%nat (mkState (Ok (VInt 10)) 0%nat))
    as [H1 _].
  vm_compute in H1. discriminate H1.
Qed.

(** C9 ([match] is idempotent and mutation-free), as amended.  [match]
    itself assigns nothing: after a call the state, the instance included,
    is as the branch function it called left it, or as it was when the
    wildcard raises.  Hence, for branch functions that leave the state
    unchanged, any number [n] of successive calls on the instance gives [n]
    times the result of the first call, and the instance and the rest of
    the state are afterwards as they were. *)
Theorem C9_match_idempotent_read_only :
  forall (W T : Type) (ok_fn err_fn : pyval -> stateful W T),
    (forall s : state W,
        snd (match_in ok_fn err_fn s) =
        if invariant (receiver s)
        then snd ((if is_ok (receiver s)
                   then ok_fn (ok (receiver s))
                   else err_fn (err (receiver s))) s)
        else s)
    /\ (read_only ok_fn -> read_only err_fn ->
        forall (n : nat) (s : state W),
          match_in_times n ok_fn err_fn s
          = (repeat (fst (match_in ok_fn err_fn s)) n, s)).
Proof.
  intros W T ok_fn err_fn. split.
  - apply match_in_state.
  - intros Hok Herr n s.
    induction n as [| n IH]; cbn [match_in_times repeat].
    + reflexivity.
    + pose proof (match_in_read_only Hok Herr s) as Hs.
      destruct (match_in ok_fn err_fn s) as [r s'] eqn:Hcall.
      cbn [snd fst] in *. subst s'.
      rewrite IH. reflexivity.
Qed.

Lemma C9_match_idempotent_read_only_witness :
  match_in_times 3 identity_in identity_in (mkState (Ok (VInt 10)) tt)
  = (repeat (Return (VInt 10)) 3, mkState (Ok (VInt 10)) tt).
Proof.
  apply (proj2 (C9_match_idempotent_read_only
                  (@identity_in unit) (@identity_in unit))).
  - intros v s. reflexivity.
  - intros v s. reflexivity.
Defined.

(** C10 ([None] payloads).  [match] on [Ok(v)] raises [UnreachableError]
    whatever the branch functions are, hence without calling either, exactly
    when [v] is [None]; the same holds of [Err(v)]. *)
Theorem C10_None_payload_unmatchable :
  forall v : pyval,
    ((forall (T : Type) (ok_fn err_fn : pyval -> outcome T),
         match_ (Ok v) ok_fn err_fn = Raise unreachable)
     <-> v = VNone)
    /\ ((forall (T : Type) (ok_fn err_fn : pyval -> outcome T),
            match_ (Err v) ok_fn err_fn = Raise unreachable)
        <-> v = VNone).
Proof.
  intros v. split; split.
  - intros H. apply is_None_true.
    specialize (H unit (fun _ => Return tt) (fun _ => Return tt)).
    rewrite match_Ok in H. destruct (is_None v); [reflexivity | discriminate H].
  - intros -> T ok_fn err_fn. reflexivity.
  - intros H. apply is_None_true.
    specialize (H unit (fun _ => Return tt) (fun _ => Return tt)).
    rewrite match_Err in H. destruct (is_None v); [reflexivity | discriminate H].
  - intros -> T ok_fn err_fn. reflexivity.
Qed.

(** * Further properties of the code *)

(** ** [Either.match] on arbitrary field values *)

(** X1.  On every instance, whatever its three fields hold, [match] raises
    [UnreachableError] exactly when the instance holds both payloads,
    neither, or a flag that names the absent one; on every other instance it
    returns what the branch named by the flag returns on the payload. *)
Theorem X1_match_guards_invariant :
  forall (T : Type) (self : Either) (ok_fn err_fn : pyval -> outcome T),
    match_ self ok_fn err_fn =
    if invariant self
    then (if is_ok self then ok_fn (ok self) else err_fn (err self))
    else Raise unreachable.
Proof. intros T self ok_fn err_fn. apply match_invariant. Qed.

(** X2.  [match] calls at most one branch function: on an instance with the
    flag set the result does not depend on [err_fn], on an instance with the
    flag clear it does not depend on [ok_fn]. *)
Theorem X2_match_ignores_other_branch :
  forall (T : Type) (self : Either)
         (ok_fn ok_fn' err_fn err_fn' : pyval -> outcome T),
    if is_ok self
    then match_ self ok_fn err_fn = match_ self ok_fn err_fn'
    else match_ self ok_fn err_fn = match_ self ok_fn' err_fn.
Proof.
  intros T self ok_fn ok_fn' err_fn err_fn'.
  destruct (is_ok self) eqn:Hflag; rewrite !match_invariant, Hflag;
    reflexivity.
Qed.

(** ** [as_either] *)

(** X3.  Matching on the result of an adapted call: a returned value other
    than [None] goes to [ok_fn], a returned [None] makes [match] raise
    [UnreachableError], a raised [Exception] instance goes to [err_fn] (an
    exception object is never [None]), and any other raised exception
    propagates before [match] is reached. *)
Theorem X3_as_either_then_match :
  forall (T : Type) (fn : callable) (args : pyargs) (kwargs : pykwargs)
         (ok_fn err_fn : pyval -> outcome T),
    (e <- as_either fn args kwargs ;; match_ e ok_fn err_fn) =
    match fn args kwargs with
    | Return v => if is_None v then Raise unreachable else ok_fn v
    | Raise exc =>
        if isinstance exc Exception then err_fn (VExc exc) else Raise exc
    end.
Proof.
  intros T fn args kwargs ok_fn err_fn.
  rewrite as_either_unfold.
  destruct (fn args kwargs) as [v | exc]; simpl.
  - apply match_Ok.
  - destruct (isinstance exc Exception); simpl.
    + apply match_Err.
    + reflexivity.
Qed.

(** X4.  The adapted call raises nothing of its own: whatever it raises was
    raised by [fn] and is not an instance of [Exception]. *)
Theorem X4_as_either_raises_only_from_fn :
  forall (fn : callable) (args : pyargs) (kwargs : pykwargs) (e : exn),
    as_either fn args kwargs = Raise e ->
    fn args kwargs = Raise e /\ isinstance e Exception = false.
Proof.
  intros fn args kwargs e. rewrite as_either_unfold.
  destruct (fn args kwargs) as [v | exc]; [discriminate |].
  destruct (isinstance exc Exception) eqn:Hexc; [discriminate |].
  intros H. injection H as ->. now split.
Qed.

Lemma X4_as_either_raises_only_from_fn_witness :
  interrupted [] [] = Raise (new_exn KeyboardInterrupt "")
  /\ isinstance (new_exn KeyboardInterrupt "") Exception = false.
Proof.
  apply (X4_as_either_raises_only_from_fn interrupted [] []).
  reflexivity.
Defined.

(** X5.  An instance the adapted call returns comes from a factory; with
    the flag clear its payload is the exception [fn] raised and it satisfies
    the invariant, with the flag set its payload is the value [fn]
    returned. *)
Theorem X5_as_either_result :
  forall (fn : callable) (args : pyargs) (kwargs : pykwargs) (r : Either),
    as_either fn args kwargs = Return r ->
    from_factory r
    /\ (is_ok r = true -> fn args kwargs = Return (ok r))
    /\ (is_ok r = false ->
        invariant r = true
        /\ exists exc : exn,
             err r = VExc exc /\ fn args kwargs = Raise exc
             /\ isinstance exc Exception = true).
Proof.
  intros fn args kwargs r. rewrite as_either_unfold.
  destruct (fn args kwargs) as [v | exc].
  - intros H. injection H as <-. repeat split.
    + constructor.
    + simpl. discriminate.
    + simpl in H. discriminate.
  - destruct (isinstance exc Exception) eqn:Hexc; [| discriminate].
    intros H. injection H as <-. repeat split.
    + constructor.
    + simpl. discriminate.
    + exists exc. now repeat split.
Qed.

Lemma X5_as_either_result_witness :
  from_factory (Err (VExc (new_exn ValueError "no argument")))
  /\ (false = true -> first_positional [] [] = Return VNone)
  /\ (false = false ->
      invariant (Err (VExc (new_exn ValueError "no argument"))) = true
      /\ exists exc : exn,
           VExc (new_exn ValueError "no argument") = VExc exc
           /\ first_positional [] [] = Raise exc
           /\ isinstance exc Exception = true).
Proof.
  apply (X5_as_either_result first_positional [] []).
  reflexivity.
Defined.

(** X6.  The package's own errors are ordinary [Exception]s of the
    [EitherError] family.  A handler for [EitherError] catches the error of
    a direct construction; and a wrapped function that constructs directly,
    or that matches on an instance violating the invariant, gets the error
    back as an [Err] payload instead of seeing it raised. *)
Theorem X6_own_errors_are_captured :
  forall (__init__ : Either -> pyargs -> pykwargs -> outcome Either)
         (use : Either -> outcome pyval)
         (ok_fn err_fn : pyval -> outcome pyval)
         (handler : exn -> outcome Either)
         (self : Either) (args : pyargs) (kwargs : pykwargs),
    try_except (Either_call __init__ args kwargs) EitherError handler
    = handler private_constructor
    /\ as_either
         (fun a k => instance <- Either_call __init__ a k ;; use instance)
         args kwargs
       = Return (Err (VExc private_constructor))
    /\ (invariant self = false ->
        as_either (fun _ _ => match_ self ok_fn err_fn) args kwargs
        = Return (Err (VExc unreachable))).
Proof.
  intros __init__ use ok_fn err_fn handler self args kwargs.
  split; [reflexivity | split; [reflexivity |]].
  intros Hinv. rewrite as_either_unfold, match_invariant, Hinv. reflexivity.
Qed.

Lemma X6_own_errors_are_captured_witness :
  as_either (fun _ _ => match_ (Ok VNone) identity identity) [] []
  = Return (Err (VExc unreachable)).
Proof.
  apply (X6_own_errors_are_captured
           (fun instance _ _ => Return instance) (fun _ => Return VNone)
           identity identity (fun exc => Raise exc) (Ok VNone) [] []).
  reflexivity.
Defined.

(** ** [as_async_either] *)





(** ** Equality of instances *)

(** X10.  Instances that compare equal carry the same flag, whatever their
    three fields hold and whatever the payloads answer to [==]: no instance
    with the flag set equals one with the flag clear. *)
Theorem X10_Either_eq_same_flag :
  forall (same_object : pyval -> pyval -> bool)
         (user_eq : pyval -> pyval -> outcome bool) (a b : Either),
    Either_eq same_object user_eq a b = Return true -> is_ok a = is_ok b.
Proof. intros same_object user_eq a b. apply Either_eq_flag. Qed.

Lemma X10_Either_eq_same_flag_witness :
  is_ok (Ok (VBool true)) = is_ok (Ok (VInt 1)).
Proof.
  apply (X10_Either_eq_same_flag one_object_per_value object_eq
           (Ok (VBool true)) (Ok (VInt 1))).
  reflexivity.
Defined.

(** X11.  For payloads on which [==] holds whenever they are one object
    (all but NaN and objects whose class answers otherwise), two [Ok]
    instances, and two [Err] instances, are equal exactly when the payloads
    are [==]. *)
Theorem X11_Either_eq_reflexive_payloads :
  forall (same_object : pyval -> pyval -> bool)
         (user_eq : pyval -> pyval -> outcome bool) (v1 v2 : pyval),
    (py_is same_object v1 v2 = true ->
     py_eq same_object user_eq v1 v2 = Return true) ->
    (Either_eq same_object user_eq (Ok v1) (Ok v2) = Return true
     <-> py_eq same_object user_eq v1 v2 = Return true)
    /\ (Either_eq same_object user_eq (Err v1) (Err v2) = Return true
        <-> py_eq same_object user_eq v1 v2 = Return true).
Proof.
  intros same_object user_eq v1 v2 Hrefl.
  rewrite Either_eq_Ok_Ok, Either_eq_Err_Err, item_eq_true.
  split; (split; [intros [H | H]; auto | intros H; now right]).
Qed.

Lemma X11_Either_eq_reflexive_payloads_witness :
  (Either_eq one_object_per_value object_eq (Ok (VStr "10")) (Ok (VStr "10"))
   = Return true
   <-> py_eq one_object_per_value object_eq (VStr "10") (VStr "10")
       = Return true)
  /\ (Either_eq one_object_per_value object_eq
        (Err (VStr "10")) (Err (VStr "10")) = Return true
      <-> py_eq one_object_per_value object_eq (VStr "10") (VStr "10")
          = Return true).
Proof.
  apply (X11_Either_eq_reflexive_payloads one_object_per_value object_eq
           (VStr "10") (VStr "10")).
  reflexivity.
Defined.
